(** * Close-approach filters and the result limiter

    A shallow embedding of [filters.py] and of the per-class modules under
    [filters/]: the [AttributeFilter] predicate classes, the factory
    [create_filters] and the generator [limit].

    Python objects that reach this code are modelled by the type [pyobj];
    an exception is an [exn] carried by the [result] monad; a suspended
    generator is a record holding the frame of its [for] loop. *)

From Stdlib Require Import ZArith List Bool Lia PrimFloat.
From Stdlib Require Import FloatOps FloatAxioms SpecFloat Sorted.
From Stdlib Require String.
Import String.StringSyntax.
Delimit Scope string_scope with string.
Import ListNotations.

Set Implicit Arguments.
Local Open Scope Z_scope.

(* ================================================================== *)
(** ** Exceptions *)

(** [UnsupportedCriterionError] is the class declared in [filters.py];
    [TypeError] is what an ordering comparison between unrelated types
    raises. *)
Inductive exn : Type :=
| UnsupportedCriterionError
| TypeError.

Inductive result (A : Type) : Type :=
| Ok (a : A)
| Raise (e : exn).

Arguments Ok {A} a.
Arguments Raise {A} e.

Definition bind {A B : Type} (m : result A) (k : A -> result B) : result B :=
  match m with
  | Ok a => k a
  | Raise e => Raise e
  end.

Notation "x <- m ;; k" := (bind m (fun x => k))
  (at level 61, m at next level, right associativity).

(* ================================================================== *)
(** ** Python objects *)

(** The objects that the command line hands to the factory, and that the
    accessors read from a close approach: [None], a [bool], a [float]
    (IEEE binary64, as a primitive float) and a [datetime.date], kept as its
    proleptic Gregorian ordinal ([date.toordinal()]), which orders dates
    the way [date] compares them. *)
Inductive pyobj : Type :=
| VNone
| VBool (b : bool)
| VFloat (f : float)
| VDate (d : Z).

(** [bool(x)], the test of an [if x:] statement: [None] and [False] are
    false, a float is false exactly when it equals zero ([0.0] and [-0.0];
    a NaN is true), and a [date] is always true. *)
Definition truthy (x : pyobj) : bool :=
  match x with
  | VNone => false
  | VBool b => b
  | VFloat f => negb (PrimFloat.eqb f 0%float)
  | VDate _ => true
  end.

(** [x is not None]. *)
Definition is_not_None (x : pyobj) : bool :=
  match x with
  | VNone => false
  | _ => true
  end.

(** A [bool] is an [int]: in a comparison with a number it counts as 0 or
    1. *)
Definition as_number (x : pyobj) : option float :=
  match x with
  | VBool b => Some (if b then 1%float else 0%float)
  | VFloat f => Some f
  | _ => None
  end.

(** [x == y]: never raises; objects of unrelated types are unequal. *)
Definition py_eq (x y : pyobj) : bool :=
  match as_number x, as_number y with
  | Some a, Some b => PrimFloat.eqb a b
  | _, _ =>
      match x, y with
      | VNone, VNone => true
      | VDate a, VDate b => Z.eqb a b
      | _, _ => false
      end
  end.

(** [x <= y]: numbers with numbers, dates with dates, [TypeError]
    otherwise. *)
Definition py_le (x y : pyobj) : result bool :=
  match as_number x, as_number y with
  | Some a, Some b => Ok (PrimFloat.leb a b)
  | _, _ =>
      match x, y with
      | VDate a, VDate b => Ok (Z.leb a b)
      | _, _ => Raise TypeError
      end
  end.

(** [x >= y]. *)
Definition py_ge (x y : pyobj) : result bool :=
  match as_number x, as_number y with
  | Some a, Some b => Ok (PrimFloat.leb b a)
  | _, _ =>
      match x, y with
      | VDate a, VDate b => Ok (Z.leb b a)
      | _, _ => Raise TypeError
      end
  end.

(** The three functions of the [operator] module that the filters use. *)
Module operator.

Inductive t : Type :=
| eq
| le
| ge.

End operator.

(** [op(x, y)] for [op] one of [operator.eq], [operator.le],
    [operator.ge]. *)
Definition apply_op (op : operator.t) (x y : pyobj) : result bool :=
  match op with
  | operator.eq => Ok (py_eq x y)
  | operator.le => py_le x y
  | operator.ge => py_ge x y
  end.

(* ================================================================== *)
(** ** Close approaches *)

(** A [datetime.datetime]: its calendar date (as an ordinal) and the time
    of day; [t.date()] drops the time of day. *)
Record datetime : Type := {
  ordinal : Z;
  microsecond_of_day : Z
}.

Definition datetime_date (t : datetime) : Z := ordinal t.

(** Modelled from the spec: [models.NearEarthObject] is not among the
    sources.  The body has a diameter, a real number that may be unknown,
    and a boolean hazard flag.  The diameter is a float, an unknown one
    being a NaN, so that "real number, may be unknown" stays a number that
    the filters can compare. *)
Record NearEarthObject : Type := {
  diameter : float;
  hazardous : bool
}.

(** Modelled from the spec: [models.CloseApproach] is not among the
    sources.  A record has a timestamp with an accessible calendar date, a
    real distance, a real velocity and a reference to its body (the
    attribute [neo] that the accessors of [filters.py] read). *)
Record CloseApproach : Type := {
  time : datetime;
  distance : float;
  velocity : float;
  neo : NearEarthObject
}.

(* ================================================================== *)
(** ** [filters.py]: the predicate classes *)

(** The eleven classes: the base class and its ten subclasses. *)
Inductive klass : Type :=
| AttributeFilter_cls
| DateFilter_cls
| DiameterMaxFilter_cls
| DiameterMinFilter_cls
| DistanceMaxFilter_cls
| DistanceMinFilter_cls
| EndDateFilter_cls
| HazardousFilter_cls
| StartDateFilter_cls
| VelocityMaxFilter_cls
| VelocityMinFilter_cls.

(** An instance: its class and the two attributes set by
    [AttributeFilter.__init__]. *)
Record filter : Type := {
  cls : klass;
  op : operator.t;
  value : pyobj
}.

(** The classmethod [get], as overridden by each subclass; the base class
    raises. *)
Definition get (c : klass) (approach : CloseApproach) : result pyobj :=
  match c with
  | AttributeFilter_cls => Raise UnsupportedCriterionError
  | DateFilter_cls => Ok (VDate (datetime_date (time approach)))
  | DiameterMaxFilter_cls => Ok (VFloat (diameter (neo approach)))
  | DiameterMinFilter_cls => Ok (VFloat (diameter (neo approach)))
  | DistanceMaxFilter_cls => Ok (VFloat (distance approach))
  | DistanceMinFilter_cls => Ok (VFloat (distance approach))
  | EndDateFilter_cls => Ok (VDate (datetime_date (time approach)))
  | HazardousFilter_cls => Ok (VBool (hazardous (neo approach)))
  | StartDateFilter_cls => Ok (VDate (datetime_date (time approach)))
  | VelocityMaxFilter_cls => Ok (VFloat (velocity approach))
  | VelocityMinFilter_cls => Ok (VFloat (velocity approach))
  end.

(** [AttributeFilter.__call__]: [self.op(self.get(approach), self.value)]. *)
Definition call (self : filter) (approach : CloseApproach) : result bool :=
  attribute <- get (cls self) approach ;;
  apply_op (op self) attribute (value self).

(** The constructors: [AttributeFilter(op, value)] and the ten
    [__init__] methods, each calling [super().__init__] with its own
    operator. *)
Definition AttributeFilter (op : operator.t) (value : pyobj) : filter :=
  {| cls := AttributeFilter_cls; op := op; value := value |}.

Definition DateFilter (date : pyobj) : filter :=
  {| cls := DateFilter_cls; op := operator.eq; value := date |}.

Definition DiameterMaxFilter (diameter : pyobj) : filter :=
  {| cls := DiameterMaxFilter_cls; op := operator.le; value := diameter |}.

Definition DiameterMinFilter (diameter : pyobj) : filter :=
  {| cls := DiameterMinFilter_cls; op := operator.ge; value := diameter |}.

Definition DistanceMaxFilter (distance : pyobj) : filter :=
  {| cls := DistanceMaxFilter_cls; op := operator.le; value := distance |}.

Definition DistanceMinFilter (distance : pyobj) : filter :=
  {| cls := DistanceMinFilter_cls; op := operator.ge; value := distance |}.

Definition EndDateFilter (date : pyobj) : filter :=
  {| cls := EndDateFilter_cls; op := operator.le; value := date |}.

Definition HazardousFilter (hazardous : pyobj) : filter :=
  {| cls := HazardousFilter_cls; op := operator.eq; value := hazardous |}.

Definition StartDateFilter (date : pyobj) : filter :=
  {| cls := StartDateFilter_cls; op := operator.ge; value := date |}.

Definition VelocityMaxFilter (velocity : pyobj) : filter :=
  {| cls := VelocityMaxFilter_cls; op := operator.le; value := velocity |}.

Definition VelocityMinFilter (velocity : pyobj) : filter :=
  {| cls := VelocityMinFilter_cls; op := operator.ge; value := velocity |}.

(* ================================================================== *)
(** ** [filters.py]: the factory *)

(** [create_filters]: the list [filters] grows by one [append] for each
    test that succeeds.  The first nine tests are truth tests ([if date:]),
    the last one is [if hazardous is not None:]. *)
Definition create_filters
  (date start_date end_date
   distance_min distance_max
   velocity_min velocity_max
   diameter_min diameter_max
   hazardous : pyobj) : list filter :=
  let filters := [] in
  let filters :=
    if truthy date then filters ++ [DateFilter date] else filters in
  let filters :=
    if truthy start_date
    then filters ++ [StartDateFilter start_date] else filters in
  let filters :=
    if truthy end_date
    then filters ++ [EndDateFilter end_date] else filters in
  let filters :=
    if truthy distance_min
    then filters ++ [DistanceMinFilter distance_min] else filters in
  let filters :=
    if truthy distance_max
    then filters ++ [DistanceMaxFilter distance_max] else filters in
  let filters :=
    if truthy velocity_min
    then filters ++ [VelocityMinFilter velocity_min] else filters in
  let filters :=
    if truthy velocity_max
    then filters ++ [VelocityMaxFilter velocity_max] else filters in
  let filters :=
    if truthy diameter_min
    then filters ++ [DiameterMinFilter diameter_min] else filters in
  let filters :=
    if truthy diameter_max
    then filters ++ [DiameterMaxFilter diameter_max] else filters in
  let filters :=
    if is_not_None hazardous
    then filters ++ [HazardousFilter hazardous] else filters in
  filters.

(** The factory as the specification words it: every one of the ten
    criteria is tested for presence ([is not None]), and a criterion that is
    present contributes its predicate, in the canonical order.  It is the
    reference that [create_filters] is compared with. *)
Definition create_filters_by_presence
  (date start_date end_date
   distance_min distance_max
   velocity_min velocity_max
   diameter_min diameter_max
   hazardous : pyobj) : list filter :=
  (if is_not_None date then [DateFilter date] else [])
  ++ (if is_not_None start_date then [StartDateFilter start_date] else [])
  ++ (if is_not_None end_date then [EndDateFilter end_date] else [])
  ++ (if is_not_None distance_min
      then [DistanceMinFilter distance_min] else [])
  ++ (if is_not_None distance_max
      then [DistanceMaxFilter distance_max] else [])
  ++ (if is_not_None velocity_min
      then [VelocityMinFilter velocity_min] else [])
  ++ (if is_not_None velocity_max
      then [VelocityMaxFilter velocity_max] else [])
  ++ (if is_not_None diameter_min
      then [DiameterMinFilter diameter_min] else [])
  ++ (if is_not_None diameter_max
      then [DiameterMaxFilter diameter_max] else [])
  ++ (if is_not_None hazardous then [HazardousFilter hazardous] else []).

(** Modelled from the spec: the query engine that evaluates a filter
    collection ([NEODatabase.query]) is not among the sources.  A record is
    accepted if and only if every predicate of the collection returns true;
    an exception raised by a predicate propagates. *)
Fixpoint accepts (filters : list filter) (approach : CloseApproach)
  : result bool :=
  match filters with
  | [] => Ok true
  | f :: rest =>
      b <- call f approach ;;
      r <- accepts rest approach ;;
      Ok (b && r)
  end.

(* ================================================================== *)
(** ** The package [filters/]: one module per class *)

Module Package.

(** Modelled from the spec: the base class that the ten modules of the
    package import (nine of them from [filters], [DateFilter.py] from
    [filters.AttributeFilter]) has no module of its own among the sources.
    The abstraction is constructed from an operator and a reference value;
    invoked on a record it computes [accessor(record) OP value]; without
    an accessor it fails with the unsupported-criterion error. *)
Module AttributeFilter.

Definition init (c : klass) (op : operator.t) (value : pyobj) : filter :=
  {| cls := c; op := op; value := value |}.

Definition get (approach : CloseApproach) : result pyobj :=
  Raise UnsupportedCriterionError.

Definition call (accessor : CloseApproach -> result pyobj)
  (self : filter) (approach : CloseApproach) : result bool :=
  attribute <- accessor approach ;;
  apply_op (op self) attribute (value self).

End AttributeFilter.

(** [filters/DateFilter.py] *)
Module DateFilter.
Definition init (date : pyobj) : filter :=
  AttributeFilter.init DateFilter_cls operator.eq date.
Definition get (approach : CloseApproach) : result pyobj :=
  Ok (VDate (datetime_date (time approach))).
End DateFilter.

(** [filters/DiameterMaxFilter.py] *)
Module DiameterMaxFilter.
Definition init (diameter : pyobj) : filter :=
  AttributeFilter.init DiameterMaxFilter_cls operator.le diameter.
Definition get (approach : CloseApproach) : result pyobj :=
  Ok (VFloat (diameter (neo approach))).
End DiameterMaxFilter.

(** [filters/DiameterMinFilter.py] *)
Module DiameterMinFilter.
Definition init (diameter : pyobj) : filter :=
  AttributeFilter.init DiameterMinFilter_cls operator.ge diameter.
Definition get (approach : CloseApproach) : result pyobj :=
  Ok (VFloat (diameter (neo approach))).
End DiameterMinFilter.

(** [filters/DistanceMaxFilter.py] *)
Module DistanceMaxFilter.
Definition init (distance : pyobj) : filter :=
  AttributeFilter.init DistanceMaxFilter_cls operator.le distance.
Definition get (approach : CloseApproach) : result pyobj :=
  Ok (VFloat (distance approach)).
End DistanceMaxFilter.

(** [filters/DistanceMinFilter.py] *)
Module DistanceMinFilter.
Definition init (distance : pyobj) : filter :=
  AttributeFilter.init DistanceMinFilter_cls operator.ge distance.
Definition get (approach : CloseApproach) : result pyobj :=
  Ok (VFloat (distance approach)).
End DistanceMinFilter.

(** [filters/EndDateFilter.py] *)
Module EndDateFilter.
Definition init (date : pyobj) : filter :=
  AttributeFilter.init EndDateFilter_cls operator.le date.
Definition get (approach : CloseApproach) : result pyobj :=
  Ok (VDate (datetime_date (time approach))).
End EndDateFilter.

(** [filters/HazardousFilter.py] *)
Module HazardousFilter.
Definition init (hazardous : pyobj) : filter :=
  AttributeFilter.init HazardousFilter_cls operator.eq hazardous.
Definition get (approach : CloseApproach) : result pyobj :=
  Ok (VBool (hazardous (neo approach))).
End HazardousFilter.

(** [filters/StartDateFilter.py] *)
Module StartDateFilter.
Definition init (date : pyobj) : filter :=
  AttributeFilter.init StartDateFilter_cls operator.ge date.
Definition get (approach : CloseApproach) : result pyobj :=
  Ok (VDate (datetime_date (time approach))).
End StartDateFilter.

(** [filters/VelocityMaxFilter.py] *)
Module VelocityMaxFilter.
Definition init (velocity : pyobj) : filter :=
  AttributeFilter.init VelocityMaxFilter_cls operator.le velocity.
Definition get (approach : CloseApproach) : result pyobj :=
  Ok (VFloat (velocity approach)).
End VelocityMaxFilter.

(** [filters/VelocityMinFilter.py] *)
Module VelocityMinFilter.
Definition init (velocity : pyobj) : filter :=
  AttributeFilter.init VelocityMinFilter_cls operator.ge velocity.
Definition get (approach : CloseApproach) : result pyobj :=
  Ok (VFloat (velocity approach)).
End VelocityMinFilter.

(** Method resolution: the [get] that an instance of class [c] finds. *)
Definition get (c : klass) : CloseApproach -> result pyobj :=
  match c with
  | AttributeFilter_cls => AttributeFilter.get
  | DateFilter_cls => DateFilter.get
  | DiameterMaxFilter_cls => DiameterMaxFilter.get
  | DiameterMinFilter_cls => DiameterMinFilter.get
  | DistanceMaxFilter_cls => DistanceMaxFilter.get
  | DistanceMinFilter_cls => DistanceMinFilter.get
  | EndDateFilter_cls => EndDateFilter.get
  | HazardousFilter_cls => HazardousFilter.get
  | StartDateFilter_cls => StartDateFilter.get
  | VelocityMaxFilter_cls => VelocityMaxFilter.get
  | VelocityMinFilter_cls => VelocityMinFilter.get
  end.

(** Invoking an instance: the inherited [__call__] with the [get] of the
    instance's class. *)
Definition call (self : filter) (approach : CloseApproach) : result bool :=
  AttributeFilter.call (get (cls self)) self approach.

End Package.

(* ================================================================== *)
(** ** [filters.py]: the generator [limit] *)

Section Limit.

Variable A : Type.

(** The iterator [enumerate(iterator)] that the [for] loop of [limit]
    walks: the elements that the input has not handed out yet, and the
    index that the next one will get.  Every element pulled from the input
    moves [index] up by one, so [index] counts the elements pulled so
    far. *)
Record enumerate : Type := {
  pending : list A;
  index : Z
}.

(** A generator object made by [limit(iterator, n)]: the argument [n]
    ([None] or an [int]) and the frame of its loop. *)
Record generator : Type := {
  n : option Z;
  frame : enumerate
}.

(** [n == 0 or n is None] *)
Definition zero_or_None (n : option Z) : bool :=
  match n with
  | Some z => z =? 0
  | None => true
  end.

(** [index < n and n > 0], evaluated only where [n] is an [int]. *)
Definition below_positive (index : Z) (n : option Z) : bool :=
  match n with
  | Some z => (index <? z) && (z >? 0)
  | None => false
  end.

(** Running the body of the generator from the head of its loop up to the
    next [yield]: each turn pulls one element from the input; the first
    branch and the second one yield it, otherwise the loop goes on to the
    next element.  When the input is exhausted the generator returns
    ([None] here, [StopIteration] for the caller). *)
Fixpoint resume (n : option Z) (pending : list A) (index : Z)
  : option A * enumerate :=
  match pending with
  | [] => (None, {| pending := []; index := index |})
  | value :: pending' =>
      if zero_or_None n then
        (Some value, {| pending := pending'; index := index + 1 |})
      else if below_positive index n then
        (Some value, {| pending := pending'; index := index + 1 |})
      else
        resume n pending' (index + 1)
  end.

(** [limit(iterator, n)]: nothing runs until the first [next]. *)
Definition limit (iterator : list A) (n : option Z) : generator :=
  {| n := n; frame := {| pending := iterator; index := 0 |} |}.

(** [next(g)] *)
Definition next (g : generator) : option A * generator :=
  let (out, frame') := resume (n g) (pending (frame g)) (index (frame g)) in
  (out, {| n := n g; frame := frame' |}).

(** A caller that asks for at most [k] elements: [k] calls of [next],
    fewer if the generator stops before. *)
Fixpoint take (k : nat) (g : generator) : list A * generator :=
  match k with
  | O => ([], g)
  | S k' =>
      match next g with
      | (Some value, g') =>
          let (values, g'') := take k' g' in (value :: values, g'')
      | (None, g') => ([], g')
      end
  end.

(** A caller that exhausts the generator, as [list(g)] or a [for] loop
    does: [next] until it signals the end.  [fuel] bounds the number of
    calls; [None] means that it was too small. *)
Fixpoint drain (fuel : nat) (g : generator) : option (list A * generator) :=
  match fuel with
  | O => None
  | S fuel' =>
      match next g with
      | (Some value, g') =>
          match drain fuel' g' with
          | Some (values, g'') => Some (value :: values, g'')
          | None => None
          end
      | (None, g') => Some ([], g')
      end
  end.

(** The number of elements that the generator has pulled from its
    input. *)
Definition pulled (g : generator) : Z := index (frame g).

(** What is left in the input. *)
Definition remaining (g : generator) : list A := pending (frame g).

(** [list(g)]: the elements yielded up to the end of the generator, and
    the generator as that leaves it.  One call of [next] for each element
    left in the input and one more are always enough. *)
Definition exhaust (g : generator) : option (list A * generator) :=
  drain (S (length (remaining g))) g.

(** The short-circuit that the specification asks of [limit(s, z)]:
    however far a caller runs the generator, to its end included, no more
    than [z] elements have been pulled from the input. *)
Definition never_pulls_past (s : list A) (z : Z) : Prop :=
  forall (fuel : nat) (out : list A) (g : generator),
    drain fuel (limit s (Some z)) = Some (out, g) -> pulled g <= z.

End Limit.

Arguments pending {A} _.
Arguments index {A} _.
Arguments n {A} _.
Arguments frame {A} _.

(** The records used in the examples. *)
Definition approach_with (d : float) (h : bool) : CloseApproach :=
  {| time := {| ordinal := 737425; microsecond_of_day := 0 |};
     distance := d;
     velocity := 10%float;
     neo := {| diameter := nan; hazardous := h |} |}.

(* ================================================================== *)
(** ** Vocabulary of the statements *)

(** [m] returns a boolean (it does not raise), and that boolean is [True]
    exactly when [P] holds. *)
Definition returns_iff (m : result bool) (P : Prop) : Prop :=
  exists b : bool, m = Ok b /\ (b = true <-> P).

(** The order of floats, as IEEE 754 and Python have it: no comparison
    with a NaN holds. *)
Definition float_le (x y : float) : Prop := PrimFloat.leb x y = true.
Definition float_ge (x y : float) : Prop := PrimFloat.leb y x = true.

(** Whether [v] has the type of the attribute that class [c] reads: a date
    for the three date classes, a float for the six numeric ones, a bool
    for the hazard class.  The base class reads no attribute. *)
Definition reference_for (c : klass) (v : pyobj) : bool :=
  match c, v with
  | (DateFilter_cls | StartDateFilter_cls | EndDateFilter_cls), VDate _ => true
  | (DistanceMinFilter_cls | DistanceMaxFilter_cls
     | VelocityMinFilter_cls | VelocityMaxFilter_cls
     | DiameterMinFilter_cls | DiameterMaxFilter_cls), VFloat _ => true
  | HazardousFilter_cls, VBool _ => true
  | _, _ => false
  end.

(** Two constructors of predicates agree: built from the same reference
    value, the instances hold the same operator and the same value, their
    classes read the same attribute, and they answer alike on every
    record.  The first is a class of [filters.py], the second one of the
    package. *)
Definition same_predicate (here there : pyobj -> filter) : Prop :=
  forall (v : pyobj) (approach : CloseApproach),
    op (here v) = op (there v)
    /\ value (here v) = value (there v)
    /\ get (cls (here v)) approach = Package.get (cls (there v)) approach
    /\ call (here v) approach = Package.call (there v) approach.

(** A criterion on which the truth test [if x:] and the presence test
    [if x is not None:] give the same answer. *)
Definition present_or_absent (x : pyobj) : Prop :=
  truthy x = is_not_None x.

(* ================================================================== *)
(** ** [filters.py]: [AttributeFilter.__repr__] *)

(** [self.__class__.__name__] *)
Definition class_name (c : klass) : String.string :=
  match c with
  | AttributeFilter_cls => "AttributeFilter"
  | DateFilter_cls => "DateFilter"
  | DiameterMaxFilter_cls => "DiameterMaxFilter"
  | DiameterMinFilter_cls => "DiameterMinFilter"
  | DistanceMaxFilter_cls => "DistanceMaxFilter"
  | DistanceMinFilter_cls => "DistanceMinFilter"
  | EndDateFilter_cls => "EndDateFilter"
  | HazardousFilter_cls => "HazardousFilter"
  | StartDateFilter_cls => "StartDateFilter"
  | VelocityMaxFilter_cls => "VelocityMaxFilter"
  | VelocityMinFilter_cls => "VelocityMinFilter"
  end%string.

(** [self.op.__name__] *)
Definition op_name (o : operator.t) : String.string :=
  match o with
  | operator.eq => "eq"
  | operator.le => "le"
  | operator.ge => "ge"
  end%string.

Section Repr.

(** How a [float] and a [date] are printed is the interpreter's business:
    the two printers are parameters. *)
Variable float_str : float -> String.string.
Variable date_str : Z -> String.string.

(** [str(x)], which the f-string applies to [self.value]. *)
Definition str (x : pyobj) : String.string :=
  match x with
  | VNone => "None"
  | VBool true => "True"
  | VBool false => "False"
  | VFloat f => float_str f
  | VDate d => date_str d
  end%string.

(** [AttributeFilter.__repr__]:
    [f"{self.__class__.__name__}(op=operator.{self.op.__name__}, value={self.value})"] *)
Definition repr (self : filter) : String.string :=
  String.append (class_name (cls self))
    (String.append "(op=operator."
       (String.append (op_name (op self))
          (String.append ", value="
             (String.append (str (value self)) ")")))).

End Repr.

(* ================================================================== *)
(** ** [limit] over an arbitrary iterator *)

Section LimitOver.

Variable A : Type.

(** An iterator: its states, and [next(iterator)], which hands out an
    element and moves to a new state, or signals the end ([None] here,
    [StopIteration] in Python). *)
Variable It : Type.
Variable pull : It -> option (A * It).

(** The body of [limit] from the head of its loop up to the next [yield],
    as [resume] above, over such an iterator.  The loop need not end when
    the iterator does not: [fuel] bounds the number of turns, and the
    result is [None] when they are used up with the loop still running. *)
Fixpoint resume_over (fuel : nat) (n : option Z) (it : It) (index : Z)
  : option (option A * (It * Z)) :=
  match fuel with
  | O => None
  | S fuel' =>
      match pull it with
      | None => Some (None, (it, index))
      | Some (value, it') =>
          if zero_or_None n then Some (Some value, (it', index + 1))
          else if below_positive index n
               then Some (Some value, (it', index + 1))
               else resume_over fuel' n it' (index + 1)
      end
  end.

(** A caller that asks for at most [k] elements, each call of [next] being
    given [fuel] turns of the loop. *)
Fixpoint take_over (fuel k : nat) (n : option Z) (it : It) (index : Z)
  : option (list A * (It * Z)) :=
  match k with
  | O => Some ([], (it, index))
  | S k' =>
      match resume_over fuel n it index with
      | None => None
      | Some (None, frame') => Some ([], frame')
      | Some (Some value, (it', index')) =>
          match take_over fuel k' n it' index' with
          | None => None
          | Some (values, frame'') => Some (value :: values, frame'')
          end
      end
  end.

(** What the iterator itself hands out when asked [k] times. *)
Fixpoint pull_many (k : nat) (it : It) : list A * It :=
  match k with
  | O => ([], it)
  | S k' =>
      match pull it with
      | None => ([], it)
      | Some (value, it') =>
          let (values, it'') := pull_many k' it' in (value :: values, it'')
      end
  end.

(** An iterator that never ends. *)
Definition endless : Prop := forall it : It, pull it <> None.

End LimitOver.

(** The iterator of a list. *)
Definition list_pull {A : Type} (l : list A) : option (A * list A) :=
  match l with
  | [] => None
  | value :: l' => Some (value, l')
  end.

(** The iterator [itertools.count()], used in the examples: it never
    ends. *)
Definition count_pull (i : Z) : option (Z * Z) := Some (i, i + 1).

(* ================================================================== *)
(** ** More vocabulary *)

(** The place of a class in the order in which [create_filters] appends. *)
Definition canonical_rank (c : klass) : nat :=
  match c with
  | DateFilter_cls => 0
  | StartDateFilter_cls => 1
  | EndDateFilter_cls => 2
  | DistanceMinFilter_cls => 3
  | DistanceMaxFilter_cls => 4
  | VelocityMinFilter_cls => 5
  | VelocityMaxFilter_cls => 6
  | DiameterMinFilter_cls => 7
  | DiameterMaxFilter_cls => 8
  | HazardousFilter_cls => 9
  | AttributeFilter_cls => 10
  end%nat.

(** Whether [<=] and [>=] are defined between the attribute that class [c]
    reads and the reference [v]: a date with a date, a number (float or
    bool) with a number. *)
Definition ordering_defined (c : klass) (v : pyobj) : bool :=
  match c, v with
  | AttributeFilter_cls, _ => false
  | (DateFilter_cls | StartDateFilter_cls | EndDateFilter_cls), VDate _ =>
      true
  | (DateFilter_cls | StartDateFilter_cls | EndDateFilter_cls), _ => false
  | _, (VBool _ | VFloat _) => true
  | _, _ => false
  end.

(** Criteria as the command line delivers them: [None] or a value of the
    option's type. *)
Definition date_or_None (x : pyobj) : bool :=
  match x with VNone | VDate _ => true | _ => false end.

Definition float_or_None (x : pyobj) : bool :=
  match x with VNone | VFloat _ => true | _ => false end.

Definition bool_or_None (x : pyobj) : bool :=
  match x with VNone | VBool _ => true | _ => false end.

(** The predicate [f] if the test [b] succeeded, nothing otherwise. *)
Definition when (b : bool) (f : filter) : list filter :=
  if b then [f] else [].

(** Every predicate of the collection returns [True] on the record: the
    record matches all of the criteria. *)
Definition matches_all (filters : list filter) (approach : CloseApproach)
  : Prop :=
  Forall (fun f => call f approach = Ok true) filters.

(* ================================================================== *)
(** * Properties of the predicate classes *)

Lemma returns_iff_Ok (b : bool) (P : Prop) :
  (b = true <-> P) -> returns_iff (Ok b) P.
Proof. intros H. exists b. split; [reflexivity | exact H]. Qed.

Lemma bool_as_number_eqb (x y : bool) :
  PrimFloat.eqb (if x then 1%float else 0%float)
                (if y then 1%float else 0%float) = Bool.eqb x y.
Proof. destruct x, y; reflexivity. Qed.

(** Invoking a predicate of a subclass never reaches the [raise] of the
    base class. *)
Lemma get_subclass (c : klass) (approach : CloseApproach) :
  c <> AttributeFilter_cls -> exists x, get c approach = Ok x.
Proof.
  intros Hc. destruct c; try (eexists; reflexivity). now elim Hc.
Qed.

(** C3. For every record and every reference value of the attribute's
    type: the four "min" predicates (start date, distance, velocity,
    diameter) return true iff the attribute they read is >= the reference;
    the four "max" predicates return true iff it is <= the reference; the
    date and hazard predicates return true iff it equals the reference.
    The attributes are the date of [time], [distance], [velocity], the
    body's [diameter] and the body's [hazardous] flag. *)
Theorem predicates_compare_their_attribute (a : CloseApproach) :
  (forall d : Z,
      returns_iff (call (StartDateFilter (VDate d)) a)
                  (datetime_date (time a) >= d))
  /\ (forall x : float,
      returns_iff (call (DistanceMinFilter (VFloat x)) a)
                  (float_ge (distance a) x))
  /\ (forall x : float,
      returns_iff (call (VelocityMinFilter (VFloat x)) a)
                  (float_ge (velocity a) x))
  /\ (forall x : float,
      returns_iff (call (DiameterMinFilter (VFloat x)) a)
                  (float_ge (diameter (neo a)) x))
  /\ (forall d : Z,
      returns_iff (call (EndDateFilter (VDate d)) a)
                  (datetime_date (time a) <= d))
  /\ (forall x : float,
      returns_iff (call (DistanceMaxFilter (VFloat x)) a)
                  (float_le (distance a) x))
  /\ (forall x : float,
      returns_iff (call (VelocityMaxFilter (VFloat x)) a)
                  (float_le (velocity a) x))
  /\ (forall x : float,
      returns_iff (call (DiameterMaxFilter (VFloat x)) a)
                  (float_le (diameter (neo a)) x))
  /\ (forall d : Z,
      returns_iff (call (DateFilter (VDate d)) a)
                  (datetime_date (time a) = d))
  /\ (forall h : bool,
      returns_iff (call (HazardousFilter (VBool h)) a)
                  (hazardous (neo a) = h)).
Proof.
  repeat split; intros; apply returns_iff_Ok; unfold float_ge, float_le.
  - rewrite Z.leb_le. lia.
  - reflexivity.
  - reflexivity.
  - reflexivity.
  - apply Z.leb_le.
  - reflexivity.
  - reflexivity.
  - reflexivity.
  - apply Z.eqb_eq.
  - change (PrimFloat.eqb (if hazardous (neo a) then 1%float else 0%float)
                          (if h then 1%float else 0%float) = true
            <-> hazardous (neo a) = h).
    rewrite bool_as_number_eqb. apply Bool.eqb_true_iff.
Qed.

(** C9. Each of the ten classes of [filters.py] and the class of the same
    name in the package [filters/] are extensionally equal: from the same
    reference value they hold the same operator and value, read the same
    attribute, and return the same result on every record. *)
Theorem package_classes_agree :
  same_predicate DateFilter Package.DateFilter.init
  /\ same_predicate StartDateFilter Package.StartDateFilter.init
  /\ same_predicate EndDateFilter Package.EndDateFilter.init
  /\ same_predicate DistanceMinFilter Package.DistanceMinFilter.init
  /\ same_predicate DistanceMaxFilter Package.DistanceMaxFilter.init
  /\ same_predicate VelocityMinFilter Package.VelocityMinFilter.init
  /\ same_predicate VelocityMaxFilter Package.VelocityMaxFilter.init
  /\ same_predicate DiameterMinFilter Package.DiameterMinFilter.init
  /\ same_predicate DiameterMaxFilter Package.DiameterMaxFilter.init
  /\ same_predicate HazardousFilter Package.HazardousFilter.init.
Proof.
  unfold same_predicate.
  repeat match goal with |- _ /\ _ => split end;
    intros v approach; repeat split; reflexivity.
Qed.

(* ================================================================== *)
(** * Properties of the factory *)

(** Where no truth-tested criterion is a zero, a truth test and a presence
    test agree, and the factory builds what the specification asks for. *)
Lemma create_filters_presence
  (date start_date end_date distance_min distance_max
   velocity_min velocity_max diameter_min diameter_max hazardous : pyobj) :
  present_or_absent date -> present_or_absent start_date ->
  present_or_absent end_date ->
  present_or_absent distance_min -> present_or_absent distance_max ->
  present_or_absent velocity_min -> present_or_absent velocity_max ->
  present_or_absent diameter_min -> present_or_absent diameter_max ->
  create_filters date start_date end_date distance_min distance_max
    velocity_min velocity_max diameter_min diameter_max hazardous
  = create_filters_by_presence date start_date end_date distance_min
      distance_max velocity_min velocity_max diameter_min diameter_max
      hazardous.
Proof.
  unfold present_or_absent, create_filters, create_filters_by_presence.
  intros -> -> -> -> -> -> -> -> ->.
  destruct (is_not_None date), (is_not_None start_date),
    (is_not_None end_date), (is_not_None distance_min),
    (is_not_None distance_max), (is_not_None velocity_min),
    (is_not_None velocity_max), (is_not_None diameter_min),
    (is_not_None diameter_max), (is_not_None hazardous); reflexivity.
Qed.

(** A date is always present-or-absent in that sense, and so is a float
    other than zero. *)
Lemma date_present_or_absent (x : pyobj) :
  (x = VNone \/ exists d, x = VDate d) -> present_or_absent x.
Proof. intros [-> | [d ->]]; reflexivity. Qed.

Lemma float_present_or_absent (x : pyobj) :
  (x = VNone \/ exists f, x = VFloat f /\ PrimFloat.eqb f 0%float = false) ->
  present_or_absent x.
Proof.
  intros [-> | [f [-> Hf]]]; [reflexivity |].
  unfold present_or_absent. simpl. now rewrite Hf.
Qed.

(** C1. [create_filters(distance_min=0.0)] returns the empty tuple, where
    the presence test of the specification gives one [DistanceMinFilter];
    likewise [create_filters(distance_max=0.0)] is empty, so that a record
    at distance 1.0, which [DistanceMaxFilter(0.0)] rejects, is accepted. *)
Theorem create_filters_drops_zero_bound :
  create_filters VNone VNone VNone (VFloat 0) VNone VNone VNone VNone VNone
    VNone = []
  /\ create_filters_by_presence VNone VNone VNone (VFloat 0) VNone VNone
       VNone VNone VNone VNone = [DistanceMinFilter (VFloat 0)]
  /\ create_filters VNone VNone VNone VNone (VFloat 0) VNone VNone VNone
       VNone VNone = []
  /\ accepts
       (create_filters VNone VNone VNone VNone (VFloat 0) VNone VNone VNone
          VNone VNone) (approach_with 1 true) = Ok true
  /\ call (DistanceMaxFilter (VFloat 0)) (approach_with 1 true) = Ok false.
Proof. repeat split; reflexivity. Qed.

(** C4. [create_filters(hazardous=False)] is exactly one predicate, the
    [HazardousFilter] of [False]: it returns false on every record whose
    body is hazardous and true on every other one, and so does the
    collection.  [create_filters()] is a different collection, the empty
    one, and accepts every record, hazardous or not. *)
Theorem hazardous_False_is_a_criterion :
  create_filters VNone VNone VNone VNone VNone VNone VNone VNone VNone
    (VBool false) = [HazardousFilter (VBool false)]
  /\ (forall a : CloseApproach,
         call (HazardousFilter (VBool false)) a
         = Ok (negb (hazardous (neo a))))
  /\ (forall a : CloseApproach,
         accepts
           (create_filters VNone VNone VNone VNone VNone VNone VNone VNone
              VNone (VBool false)) a
         = Ok (negb (hazardous (neo a))))
  /\ create_filters VNone VNone VNone VNone VNone VNone VNone VNone VNone
       VNone = []
  /\ (forall a : CloseApproach,
         accepts
           (create_filters VNone VNone VNone VNone VNone VNone VNone VNone
              VNone VNone) a
         = Ok true).
Proof.
  repeat match goal with |- _ /\ _ => split end;
    try reflexivity; intros a;
    destruct a as [t d v [dia h]]; destruct h; reflexivity.
Qed.

(** C7. [create_filters()], every criterion absent, returns the empty
    collection, and the empty collection accepts every record. *)
Theorem no_criteria_no_filters :
  create_filters VNone VNone VNone VNone VNone VNone VNone VNone VNone
    VNone = []
  /\ (forall a : CloseApproach, accepts [] a = Ok true).
Proof. split; reflexivity. Qed.

(* ================================================================== *)
(** * Properties of the generator [limit] *)

Section LimitFacts.

Variable A : Type.
Implicit Types (s p : list A) (i z : Z) (k fuel : nat).

(** One turn of the loop in the pass-through branch. *)
Lemma resume_unlimited (m : option Z) x p i :
  zero_or_None m = true ->
  resume m (x :: p) i = (Some x, {| pending := p; index := i + 1 |}).
Proof. intros H. simpl. now rewrite H. Qed.

(** One turn of the loop below a positive limit. *)
Lemma resume_below z x p i :
  0 < z -> i < z ->
  resume (Some z) (x :: p) i
  = (Some x, {| pending := p; index := i + 1 |}).
Proof.
  intros Hz Hi. simpl.
  destruct (z =? 0); [reflexivity |].
  assert (Hlt : (i <? z) = true) by (apply Z.ltb_lt; lia).
  assert (Hgt : (z >? 0) = true) by (apply Z.gtb_lt; lia).
  now rewrite Hlt, Hgt.
Qed.

(** Past the limit, and for a negative limit, no branch yields: the loop
    runs to the end of the input, pulling every element. *)
Lemma resume_skips z p i :
  z <> 0 -> (z <= i \/ z < 0) ->
  resume (Some z) p i
  = (None, {| pending := []; index := i + Z.of_nat (length p) |}).
Proof.
  intros Hz. revert i. induction p as [| x p IH]; intros i Hi.
  - simpl. now rewrite Z.add_0_r.
  - cbn [resume zero_or_None below_positive].
    assert (H0 : (z =? 0) = false) by (apply Z.eqb_neq; exact Hz).
    rewrite H0.
    assert (Hb : (i <? z) && (z >? 0) = false).
    { destruct Hi as [Hi | Hi].
      - assert (H : (i <? z) = false) by (apply Z.ltb_ge; lia).
        now rewrite H.
      - assert (H : (z >? 0) = false).
        { rewrite Z.gtb_ltb. apply Z.ltb_ge. lia. }
        rewrite H. apply andb_false_r. }
    rewrite Hb, IH by lia.
    do 2 f_equal. rewrite length_cons. lia.
Qed.

(** Asking for [k] elements while the limit is not reached: the generator
    has yielded the first [k] elements that the input had, and has pulled
    those and no other. *)
Lemma take_below z k : forall p i,
  0 < z -> i + Z.of_nat k <= z ->
  take k {| n := Some z; frame := {| pending := p; index := i |} |}
  = (firstn k p,
     {| n := Some z;
        frame := {| pending := skipn k p;
                    index := i + Z.of_nat (length (firstn k p)) |} |}).
Proof.
  induction k as [| k IH]; intros p i Hz Hk.
  - simpl. now rewrite Z.add_0_r.
  - destruct p as [| x p].
    + simpl. now rewrite Z.add_0_r.
    + cbn [take]. unfold next. cbn [n frame pending index].
      rewrite resume_below by lia.
      rewrite IH by lia.
      cbn [firstn skipn]. rewrite length_cons.
      do 3 f_equal. lia.
Qed.

(** Exhausting a pass-through generator. *)
Lemma drain_unlimited (m : option Z) : forall p i fuel,
  zero_or_None m = true -> (length p < fuel)%nat ->
  drain fuel {| n := m; frame := {| pending := p; index := i |} |}
  = Some (p, {| n := m;
                frame := {| pending := [];
                            index := i + Z.of_nat (length p) |} |}).
Proof.
  induction p as [| x p IH]; intros i fuel Hn Hfuel;
    (destruct fuel as [| fuel]; [simpl in Hfuel; lia |]).
  - simpl. now rewrite Z.add_0_r.
  - cbn [drain]. unfold next. cbn [n frame pending index].
    rewrite resume_unlimited by exact Hn.
    rewrite IH by (simpl in Hfuel; auto with arith).
    do 4 f_equal. rewrite length_cons. lia.
Qed.

(** Exhausting a generator with a positive limit: the elements below the
    limit are yielded, every element is pulled. *)
Lemma drain_limited z : forall p i fuel,
  0 < z -> (length p < fuel)%nat ->
  drain fuel {| n := Some z; frame := {| pending := p; index := i |} |}
  = Some (firstn (Z.to_nat (z - i)) p,
          {| n := Some z;
             frame := {| pending := [];
                         index := i + Z.of_nat (length p) |} |}).
Proof.
  induction p as [| x p IH]; intros i fuel Hz Hfuel;
    (destruct fuel as [| fuel]; [simpl in Hfuel; lia |]).
  - simpl. now rewrite firstn_nil, Z.add_0_r.
  - cbn [drain]. unfold next. cbn [n frame pending index].
    destruct (Z.lt_ge_cases i z) as [Hi | Hi].
    + rewrite resume_below by lia.
      rewrite IH by (simpl in Hfuel; auto with arith).
      replace (Z.to_nat (z - i)) with (S (Z.to_nat (z - (i + 1)))) by lia.
      cbn [firstn]. do 4 f_equal. rewrite length_cons. lia.
    + rewrite resume_skips by lia.
      replace (Z.to_nat (z - i)) with O by lia.
      reflexivity.
Qed.

(** Exhausting a generator with a negative limit. *)
Lemma drain_negative z p i fuel :
  z < 0 -> (0 < fuel)%nat ->
  drain fuel {| n := Some z; frame := {| pending := p; index := i |} |}
  = Some ([], {| n := Some z;
                 frame := {| pending := [];
                             index := i + Z.of_nat (length p) |} |}).
Proof.
  intros Hz Hfuel. destruct fuel as [| fuel]; [lia |].
  cbn [drain]. unfold next. cbn [n frame pending index].
  now rewrite resume_skips by lia.
Qed.

(** C5. With [n] zero or absent, [limit] is the identity: exhausting
    [limit(s, 0)] and [limit(s, None)] gives every element of [s], in
    order and unchanged. *)
Theorem limit_zero_or_None_is_identity s :
  (exists g, exhaust (limit s None) = Some (s, g))
  /\ (exists g, exhaust (limit s (Some 0)) = Some (s, g)).
Proof.
  split; eexists; unfold exhaust, limit, remaining;
    cbn [frame pending]; apply drain_unlimited;
    solve [reflexivity | auto with arith].
Qed.

(** C6. With [n > 0], exhausting [limit(s, n)] gives the first
    [min(n, len(s))] elements of [s], in order and unchanged; when [s] has
    no more than [n] elements that is [s] itself. *)
Theorem limit_positive_is_firstn s z :
  0 < z ->
  (exists g, exhaust (limit s (Some z)) = Some (firstn (Z.to_nat z) s, g))
  /\ length (firstn (Z.to_nat z) s) = Nat.min (Z.to_nat z) (length s)
  /\ (Z.of_nat (length s) <= z -> firstn (Z.to_nat z) s = s).
Proof.
  intros Hz. split; [| split].
  - eexists. unfold exhaust, limit, remaining. cbn [frame pending].
    rewrite drain_limited by auto with arith.
    now rewrite Z.sub_0_r.
  - apply length_firstn.
  - intros Hlen. apply firstn_all2. lia.
Qed.

(** C10. With [n < 0], exhausting [limit(s, n)] ends normally and gives
    no element at all. *)
Theorem limit_negative_is_empty s z :
  z < 0 ->
  exists g, exhaust (limit s (Some z)) = Some ([], g).
Proof.
  intros Hz. eexists. unfold exhaust, limit.
  apply drain_negative; [exact Hz | auto with arith].
Qed.

(** C2, as the code has it. With [n > 0]: a caller that asks for [k <= n]
    elements gets the first [k] that the input has, and [limit] has pulled
    exactly those from the input, leaving the rest in place; a caller that
    exhausts [limit(s, n)] gets the first [n] elements, and by then
    [limit] has pulled every element of the input. *)
Theorem limit_pulls_on_demand_until_exhausted s z k :
  0 < z -> Z.of_nat k <= z ->
  (exists g,
      take k (limit s (Some z)) = (firstn k s, g)
      /\ remaining g = skipn k s
      /\ pulled g = Z.of_nat (length (firstn k s)))
  /\ (exists g,
      exhaust (limit s (Some z)) = Some (firstn (Z.to_nat z) s, g)
      /\ remaining g = []
      /\ pulled g = Z.of_nat (length s)).
Proof.
  intros Hz Hk. split.
  - eexists. unfold limit. rewrite take_below by lia.
    repeat split.
  - eexists. unfold exhaust, limit, remaining. cbn [frame pending].
    rewrite drain_limited by auto with arith.
    rewrite Z.sub_0_r. repeat split.
Qed.

End LimitFacts.

(** [limit(s, 5)] over the two elements 1, 2. *)
Lemma limit_positive_is_firstn_witness :
  0 < 5
  /\ (exists g, exhaust (limit [1; 2] (Some 5)) = Some ([1; 2], g)).
Proof.
  split; [lia |].
  exact (proj1 (@limit_positive_is_firstn Z [1; 2] 5 eq_refl)).
Defined.

(** [limit(s, -1)] over the elements 1, 2, 3. *)
Lemma limit_negative_is_empty_witness :
  -1 < 0
  /\ (exists g, exhaust (limit [1; 2; 3] (Some (-1))) = Some ([], g)).
Proof.
  split; [lia |].
  exact (@limit_negative_is_empty Z [1; 2; 3] (-1) eq_refl).
Defined.

(** C2, as the specification has it, fails: exhausting [limit(s, 3)] over
    ten elements pulls all ten of them from the input. *)
Lemma limit_exhausted_pulls_past_n :
  ~ never_pulls_past [1; 2; 3; 4; 5; 6; 7; 8; 9; 10] 3.
Proof.
  intros H.
  specialize (H 11%nat [1; 2; 3]
                {| n := Some 3; frame := {| pending := []; index := 10 |} |}
                eq_refl).
  apply H. reflexivity.
Qed.

(** Two elements asked of [limit(s, 3)] over ten: two pulled, eight left;
    exhausted: three yielded, ten pulled. *)
Lemma limit_pulls_on_demand_until_exhausted_witness :
  (0 < 3 /\ Z.of_nat 2 <= 3)
  /\ (exists g,
        take 2 (limit [1; 2; 3; 4; 5; 6; 7; 8; 9; 10] (Some 3)) = ([1; 2], g)
        /\ remaining g = [3; 4; 5; 6; 7; 8; 9; 10]
        /\ pulled g = 2)
  /\ (exists g,
        exhaust (limit [1; 2; 3; 4; 5; 6; 7; 8; 9; 10] (Some 3))
        = Some ([1; 2; 3], g)
        /\ remaining g = []
        /\ pulled g = 10).
Proof.
  split; [split; [lia | simpl; lia] |].
  apply (@limit_pulls_on_demand_until_exhausted
           Z [1; 2; 3; 4; 5; 6; 7; 8; 9; 10] 3 2);
    [lia | simpl; lia].
Defined.

(* ================================================================== *)
(** * Errors *)

(** An ordering predicate whose reference value is not of the attribute's
    type raises [TypeError] when invoked: the factory does not check the
    types of the criteria. *)
Lemma call_mismatched_reference :
  call (DistanceMinFilter (VDate 737425)) (approach_with 1 false)
  = Raise TypeError.
Proof. reflexivity. Qed.

Lemma create_filters_concrete
  (date start_date end_date distance_min distance_max
   velocity_min velocity_max diameter_min diameter_max hazardous : pyobj) :
  Forall (fun f => cls f <> AttributeFilter_cls)
    (create_filters date start_date end_date distance_min distance_max
       velocity_min velocity_max diameter_min diameter_max hazardous).
Proof.
  unfold create_filters.
  destruct (truthy date), (truthy start_date), (truthy end_date),
    (truthy distance_min), (truthy distance_max), (truthy velocity_min),
    (truthy velocity_max), (truthy diameter_min), (truthy diameter_max),
    (is_not_None hazardous);
    cbn [app]; repeat apply Forall_cons; try apply Forall_nil;
    discriminate.
Qed.

(** Exhausting [limit(s, n)] ends with [StopIteration], the normal end of
    a generator, for [n] absent or any integer. *)
Lemma exhaust_limit_returns (A : Type) (s : list A) (m : option Z) :
  exists out g, exhaust (limit s m) = Some (out, g).
Proof.
  unfold exhaust, limit, remaining. cbn [frame pending].
  destruct m as [z |].
  - destruct (Z.lt_trichotomy z 0) as [Hz | [-> | Hz]].
    + rewrite drain_negative by (auto with arith). eauto.
    + rewrite drain_unlimited by (auto with arith). eauto.
    + rewrite drain_limited by (auto with arith). eauto.
  - rewrite drain_unlimited by (auto with arith). eauto.
Qed.

(** C8, as the specification has it, fails: an instance of one of the ten
    subclasses, invoked on a record, may raise.  [DistanceMinFilter] of a
    date raises [TypeError], so it is not true that every instance of a
    subclass returns a boolean on every record. *)
Lemma subclass_instance_raises_TypeError :
  call (DistanceMinFilter (VDate 737425)) (approach_with 1 false)
  = Raise TypeError
  /\ ~ (forall (f : filter) (a : CloseApproach),
          cls f <> AttributeFilter_cls -> exists b : bool, call f a = Ok b).
Proof.
  split; [reflexivity |].
  intros H.
  destruct (H (DistanceMinFilter (VDate 737425)) (approach_with 1 false))
    as [b Hb]; discriminate.
Qed.

(** C8, as the code has it.  Invoking an instance of the base class raises
    [UnsupportedCriterionError], whatever the operator, the value and the
    record, and an instance of a subclass never raises that error.  An
    instance of a subclass whose reference value has the type of its
    attribute returns a boolean on every record; one whose operator is an
    ordering and whose reference value cannot be ordered with the
    attribute raises [TypeError] on every record.  [create_filters]
    returns, for every combination of criteria, a collection in which no
    instance is of the base class; and exhausting [limit(s, n)] ends
    normally for [n] absent or any integer. *)
Theorem errors_of_the_core :
  (forall (o : operator.t) (v : pyobj) (a : CloseApproach),
      call (AttributeFilter o v) a = Raise UnsupportedCriterionError)
  /\ (forall (f : filter) (a : CloseApproach),
      cls f <> AttributeFilter_cls ->
      call f a <> Raise UnsupportedCriterionError)
  /\ (forall (f : filter) (a : CloseApproach),
      reference_for (cls f) (value f) = true ->
      exists b : bool, call f a = Ok b)
  /\ (forall (f : filter) (a : CloseApproach),
      cls f <> AttributeFilter_cls ->
      op f <> operator.eq ->
      ordering_defined (cls f) (value f) = false ->
      call f a = Raise TypeError)
  /\ (forall date start_date end_date distance_min distance_max
             velocity_min velocity_max diameter_min diameter_max hazardous,
      Forall (fun f => cls f <> AttributeFilter_cls)
        (create_filters date start_date end_date distance_min distance_max
           velocity_min velocity_max diameter_min diameter_max hazardous))
  /\ (forall (A : Type) (s : list A) (m : option Z),
      exists out g, exhaust (limit s m) = Some (out, g)).
Proof.
  split; [reflexivity |].
  split.
  { intros [c o v] a Hc. cbn [cls] in Hc.
    destruct c; [now elim Hc | ..]; destruct o, v; discriminate. }
  split.
  { intros [c o v] a H. cbn [cls value] in H.
    destruct c, v; try discriminate H; destruct o; eexists; reflexivity. }
  split.
  { intros [c o v] a Hc Ho Hv. cbn [cls op value] in Hc, Ho, Hv.
    destruct c; [now elim Hc | ..];
      (destruct o; [now elim Ho | ..]);
      destruct v; try discriminate Hv; reflexivity. }
  split; [exact create_filters_concrete | exact exhaust_limit_returns].
Qed.

(** [DistanceMinFilter(0.5)] and [DistanceMinFilter] of a date, on a record
    at distance 1.0. *)
Lemma errors_of_the_core_witness :
  (reference_for (cls (DistanceMinFilter (VFloat 0.5)))
                 (value (DistanceMinFilter (VFloat 0.5))) = true
   /\ exists b : bool,
        call (DistanceMinFilter (VFloat 0.5)) (approach_with 1 false) = Ok b)
  /\ (ordering_defined (cls (DistanceMinFilter (VDate 737425)))
                       (value (DistanceMinFilter (VDate 737425))) = false
      /\ call (DistanceMinFilter (VDate 737425)) (approach_with 1 false)
         = Raise TypeError).
Proof.
  split; (split; [reflexivity |]).
  - apply (proj1 (proj2 (proj2 errors_of_the_core))). reflexivity.
  - apply (proj1 (proj2 (proj2 (proj2 errors_of_the_core))));
      [discriminate | discriminate | reflexivity].
Defined.

(* ================================================================== *)
(** * More on the factory *)

(** The factory in closed form: one optional predicate per criterion, in
    the order of the source. *)
Lemma create_filters_when
  (date start_date end_date distance_min distance_max
   velocity_min velocity_max diameter_min diameter_max hazardous : pyobj) :
  create_filters date start_date end_date distance_min distance_max
    velocity_min velocity_max diameter_min diameter_max hazardous
  = when (truthy date) (DateFilter date)
    ++ when (truthy start_date) (StartDateFilter start_date)
    ++ when (truthy end_date) (EndDateFilter end_date)
    ++ when (truthy distance_min) (DistanceMinFilter distance_min)
    ++ when (truthy distance_max) (DistanceMaxFilter distance_max)
    ++ when (truthy velocity_min) (VelocityMinFilter velocity_min)
    ++ when (truthy velocity_max) (VelocityMaxFilter velocity_max)
    ++ when (truthy diameter_min) (DiameterMinFilter diameter_min)
    ++ when (truthy diameter_max) (DiameterMaxFilter diameter_max)
    ++ when (is_not_None hazardous) (HazardousFilter hazardous).
Proof.
  unfold create_filters.
  destruct (truthy date), (truthy start_date), (truthy end_date),
    (truthy distance_min), (truthy distance_max), (truthy velocity_min),
    (truthy velocity_max), (truthy diameter_min), (truthy diameter_max),
    (is_not_None hazardous); reflexivity.
Qed.

Lemma Forall_when (P : filter -> Prop) (b : bool) (f : filter) :
  Forall P (when b f) <-> (b = true -> P f).
Proof.
  destruct b; simpl; split.
  - intros H _. now inversion H.
  - intros H. constructor; [now apply H | constructor].
  - discriminate.
  - constructor.
Qed.

(** A property holds of every predicate that the factory returns exactly
    when it holds of the predicate of each criterion that passes its
    test. *)
Lemma create_filters_Forall (P : filter -> Prop)
  (date start_date end_date distance_min distance_max
   velocity_min velocity_max diameter_min diameter_max hazardous : pyobj) :
  Forall P
    (create_filters date start_date end_date distance_min distance_max
       velocity_min velocity_max diameter_min diameter_max hazardous)
  <-> (truthy date = true -> P (DateFilter date))
      /\ (truthy start_date = true -> P (StartDateFilter start_date))
      /\ (truthy end_date = true -> P (EndDateFilter end_date))
      /\ (truthy distance_min = true -> P (DistanceMinFilter distance_min))
      /\ (truthy distance_max = true -> P (DistanceMaxFilter distance_max))
      /\ (truthy velocity_min = true -> P (VelocityMinFilter velocity_min))
      /\ (truthy velocity_max = true -> P (VelocityMaxFilter velocity_max))
      /\ (truthy diameter_min = true -> P (DiameterMinFilter diameter_min))
      /\ (truthy diameter_max = true -> P (DiameterMaxFilter diameter_max))
      /\ (is_not_None hazardous = true -> P (HazardousFilter hazardous)).
Proof.
  rewrite create_filters_when.
  repeat rewrite Forall_app. repeat rewrite Forall_when. reflexivity.
Qed.

Lemma truthy_is_not_None (x : pyobj) :
  truthy x = true -> is_not_None x = true.
Proof. destruct x; simpl; congruence. Qed.

(** Classes in strictly increasing canonical order are pairwise
    different. *)
Lemma sorted_ranks_NoDup (l : list filter) :
  StronglySorted lt (map (fun f => canonical_rank (cls f)) l) ->
  NoDup (map cls l).
Proof.
  induction l as [| f l IH]; simpl; intros H; [constructor |].
  inversion H as [| r rs Hs Hall]; subst.
  constructor; [| now apply IH].
  intros Hin. apply in_map_iff in Hin as [g [Hg Hin]].
  rewrite Forall_forall in Hall.
  assert (Hlt : (canonical_rank (cls f) < canonical_rank (cls g))%nat).
  { apply Hall. apply in_map_iff. now exists g. }
  rewrite Hg in Hlt. lia.
Qed.

(** X1. Whatever the criteria, the predicates that [create_filters]
    returns stand in the canonical order of their classes, no class occurs
    twice, and there are at most ten of them. *)
Theorem create_filters_canonical_order
  (date start_date end_date distance_min distance_max
   velocity_min velocity_max diameter_min diameter_max hazardous : pyobj) :
  let filters :=
    create_filters date start_date end_date distance_min distance_max
      velocity_min velocity_max diameter_min diameter_max hazardous in
  StronglySorted lt (map (fun f => canonical_rank (cls f)) filters)
  /\ NoDup (map cls filters)
  /\ (length filters <= 10)%nat.
Proof.
  cbv zeta.
  assert (Hsorted :
    StronglySorted lt
      (map (fun f => canonical_rank (cls f))
         (create_filters date start_date end_date distance_min distance_max
            velocity_min velocity_max diameter_min diameter_max hazardous))).
  { rewrite create_filters_when.
    destruct (truthy date), (truthy start_date), (truthy end_date),
      (truthy distance_min), (truthy distance_max), (truthy velocity_min),
      (truthy velocity_max), (truthy diameter_min), (truthy diameter_max),
      (is_not_None hazardous);
      cbn;
      repeat first [ apply SSorted_nil | apply SSorted_cons
                   | apply Forall_nil | apply Forall_cons ];
      lia. }
  split; [exact Hsorted | split; [now apply sorted_ranks_NoDup |]].
  rewrite create_filters_when. repeat rewrite length_app.
  unfold when.
  destruct (truthy date), (truthy start_date), (truthy end_date),
    (truthy distance_min), (truthy distance_max), (truthy velocity_min),
    (truthy velocity_max), (truthy diameter_min), (truthy diameter_max),
    (is_not_None hazardous); simpl; lia.
Qed.

(** X2. No predicate that [create_filters] returns holds [None] as its
    reference value, and none but the hazard predicate holds a falsy one:
    a bound equal to zero never reaches a predicate. *)
Theorem create_filters_references_are_truthy
  (date start_date end_date distance_min distance_max
   velocity_min velocity_max diameter_min diameter_max hazardous : pyobj) :
  Forall (fun f =>
            is_not_None (value f) = true
            /\ (cls f <> HazardousFilter_cls -> truthy (value f) = true))
    (create_filters date start_date end_date distance_min distance_max
       velocity_min velocity_max diameter_min diameter_max hazardous).
Proof.
  apply create_filters_Forall.
  repeat match goal with |- _ /\ _ => split end;
    intros H; cbn [value cls DateFilter StartDateFilter EndDateFilter
                     DistanceMinFilter DistanceMaxFilter VelocityMinFilter
                     VelocityMaxFilter DiameterMinFilter DiameterMaxFilter
                     HazardousFilter];
    (split; [auto using truthy_is_not_None | intros Hc; auto]).
Qed.

(** X3. When every criterion is [None] or of the type of its option (a
    date for the three date criteria, a float for the six bounds, a bool
    for the hazard flag), every predicate that [create_filters] returns
    gives a boolean on every record: none raises. *)
Theorem create_filters_typed_never_raises
  (date start_date end_date distance_min distance_max
   velocity_min velocity_max diameter_min diameter_max hazardous : pyobj)
  (approach : CloseApproach) :
  date_or_None date = true ->
  date_or_None start_date = true ->
  date_or_None end_date = true ->
  float_or_None distance_min = true ->
  float_or_None distance_max = true ->
  float_or_None velocity_min = true ->
  float_or_None velocity_max = true ->
  float_or_None diameter_min = true ->
  float_or_None diameter_max = true ->
  bool_or_None hazardous = true ->
  Forall (fun f => exists b : bool, call f approach = Ok b)
    (create_filters date start_date end_date distance_min distance_max
       velocity_min velocity_max diameter_min diameter_max hazardous).
Proof.
  intros H1 H2 H3 H4 H5 H6 H7 H8 H9 H10.
  apply create_filters_Forall.
  repeat match goal with |- _ /\ _ => split end; intros Ht.
  - destruct date; try discriminate; eexists; reflexivity.
  - destruct start_date; try discriminate; eexists; reflexivity.
  - destruct end_date; try discriminate; eexists; reflexivity.
  - destruct distance_min; try discriminate; eexists; reflexivity.
  - destruct distance_max; try discriminate; eexists; reflexivity.
  - destruct velocity_min; try discriminate; eexists; reflexivity.
  - destruct velocity_max; try discriminate; eexists; reflexivity.
  - destruct diameter_min; try discriminate; eexists; reflexivity.
  - destruct diameter_max; try discriminate; eexists; reflexivity.
  - destruct hazardous; try discriminate; eexists; reflexivity.
Qed.

(** [create_filters(date=..., distance_min=0.25, hazardous=True)] on a
    record. *)
Lemma create_filters_typed_never_raises_witness :
  Forall (fun f => exists b : bool, call f (approach_with 1 false) = Ok b)
    (create_filters (VDate 737425) VNone VNone (VFloat 0.25) VNone VNone
       VNone VNone VNone (VBool true)).
Proof.
  apply (@create_filters_typed_never_raises
           (VDate 737425) VNone VNone (VFloat 0.25) VNone VNone VNone VNone
           VNone (VBool true) (approach_with 1 false));
    reflexivity.
Defined.

(** Invoking the predicates of the date classes on a date reference. *)
Lemma call_StartDateFilter (d : Z) (a : CloseApproach) :
  call (StartDateFilter (VDate d)) a = Ok (d <=? datetime_date (time a)).
Proof. reflexivity. Qed.

Lemma call_EndDateFilter (d : Z) (a : CloseApproach) :
  call (EndDateFilter (VDate d)) a = Ok (datetime_date (time a) <=? d).
Proof. reflexivity. Qed.

Lemma call_DateFilter (d : Z) (a : CloseApproach) :
  call (DateFilter (VDate d)) a = Ok (datetime_date (time a) =? d).
Proof. reflexivity. Qed.

Lemma Ok_true_iff (b : bool) : @Ok bool b = Ok true <-> b = true.
Proof. split; [now intros [= ->] | now intros ->]. Qed.

(** X4. A record matches all of
    [create_filters(start_date=d1, end_date=d2)] exactly when its date lies
    in the closed range from [d1] to [d2]; an inverted range matches no
    record. *)
Theorem date_range_matches (d1 d2 : Z) (a : CloseApproach) :
  (matches_all
     (create_filters VNone (VDate d1) (VDate d2) VNone VNone VNone VNone
        VNone VNone VNone) a
   <-> d1 <= datetime_date (time a) <= d2)
  /\ (d2 < d1 ->
      ~ matches_all
          (create_filters VNone (VDate d1) (VDate d2) VNone VNone VNone
             VNone VNone VNone VNone) a).
Proof.
  assert (H : matches_all
     (create_filters VNone (VDate d1) (VDate d2) VNone VNone VNone VNone
        VNone VNone VNone) a
   <-> d1 <= datetime_date (time a) <= d2).
  { unfold matches_all. rewrite create_filters_Forall.
    cbn [truthy is_not_None].
    rewrite call_StartDateFilter, call_EndDateFilter.
    rewrite !Ok_true_iff, !Z.leb_le.
    intuition discriminate. }
  split; [exact H |].
  intros Hlt Hm. apply H in Hm. lia.
Qed.

(** The range from day 737425 to day 737430, inverted. *)
Lemma date_range_matches_witness :
  737425 < 737430
  /\ ~ matches_all
         (create_filters VNone (VDate 737430) (VDate 737425) VNone VNone
            VNone VNone VNone VNone VNone) (approach_with 1 false).
Proof.
  split; [lia |].
  apply (proj2 (date_range_matches 737430 737425 (approach_with 1 false))).
  lia.
Defined.

(** X5. [create_filters(start_date=d, end_date=d)] and
    [create_filters(date=d)] match the same records. *)
Theorem one_day_range_is_date (d : Z) (a : CloseApproach) :
  matches_all
    (create_filters VNone (VDate d) (VDate d) VNone VNone VNone VNone VNone
       VNone VNone) a
  <-> matches_all
        (create_filters (VDate d) VNone VNone VNone VNone VNone VNone VNone
           VNone VNone) a.
Proof.
  unfold matches_all. rewrite !create_filters_Forall.
  cbn [truthy is_not_None].
  rewrite call_StartDateFilter, call_EndDateFilter, call_DateFilter.
  rewrite !Ok_true_iff, !Z.leb_le, Z.eqb_eq.
  split.
  - intros (_ & H1 & H2 & _). specialize (H1 eq_refl).
    specialize (H2 eq_refl).
    repeat match goal with |- _ /\ _ => split end;
      try discriminate. intros _. lia.
  - intros (H & _). specialize (H eq_refl).
    repeat match goal with |- _ /\ _ => split end;
      try discriminate; intros _; lia.
Qed.

(** X6. With two bounds other than zero, a record matches all of
    [create_filters(distance_min=lo, distance_max=hi)] exactly when its
    distance is [>= lo] and [<= hi]: the predicates combine as a
    conjunction.  The same holds of the velocity and of the diameter. *)
Theorem bounds_combine_as_conjunction (lo hi : float) (a : CloseApproach) :
  PrimFloat.eqb lo 0 = false ->
  PrimFloat.eqb hi 0 = false ->
  (matches_all
     (create_filters VNone VNone VNone (VFloat lo) (VFloat hi) VNone VNone
        VNone VNone VNone) a
   <-> float_ge (distance a) lo /\ float_le (distance a) hi)
  /\ (matches_all
        (create_filters VNone VNone VNone VNone VNone (VFloat lo)
           (VFloat hi) VNone VNone VNone) a
      <-> float_ge (velocity a) lo /\ float_le (velocity a) hi)
  /\ (matches_all
        (create_filters VNone VNone VNone VNone VNone VNone VNone
           (VFloat lo) (VFloat hi) VNone) a
      <-> float_ge (diameter (neo a)) lo /\ float_le (diameter (neo a)) hi).
Proof.
  intros Hlo Hhi. unfold matches_all, float_ge, float_le.
  rewrite !create_filters_Forall. cbn [truthy is_not_None].
  rewrite Hlo, Hhi. cbn [negb].
  repeat match goal with |- _ /\ _ => split end;
    (split;
     [ intros H; decompose [and] H; clear H;
       split;
       match goal with
       | Hf : true = true -> call ?f a = Ok true |- _ = true =>
           first [ now injection (Hf eq_refl) | fail ]
       end
     | intros [H1 H2];
       repeat match goal with |- _ /\ _ => split end;
       try discriminate; intros _;
       cbv [call get cls op value bind apply_op py_ge py_le as_number
              DistanceMinFilter DistanceMaxFilter VelocityMinFilter
              VelocityMaxFilter DiameterMinFilter DiameterMaxFilter];
       congruence ]).
Qed.

(** The bounds 0.25 and 0.5 against a record at distance 1.0. *)
Lemma bounds_combine_as_conjunction_witness :
  (PrimFloat.eqb 0.25 0 = false /\ PrimFloat.eqb 0.5 0 = false)
  /\ (matches_all
        (create_filters VNone VNone VNone (VFloat 0.25) (VFloat 0.5) VNone
           VNone VNone VNone VNone) (approach_with 1 false)
      <-> float_ge (distance (approach_with 1 false)) 0.25
          /\ float_le (distance (approach_with 1 false)) 0.5).
Proof.
  split; [split; reflexivity |].
  exact (proj1 (@bounds_combine_as_conjunction
                  0.25 0.5 (approach_with 1 false) eq_refl eq_refl)).
Defined.

(** X7. For every record, exactly one of
    [create_filters(hazardous=True)] and [create_filters(hazardous=False)]
    matches it: the two flags split the records in two. *)
Theorem hazard_flags_partition (a : CloseApproach) :
  matches_all
    (create_filters VNone VNone VNone VNone VNone VNone VNone VNone VNone
       (VBool true)) a
  <-> ~ matches_all
          (create_filters VNone VNone VNone VNone VNone VNone VNone VNone
             VNone (VBool false)) a.
Proof.
  unfold matches_all. rewrite !create_filters_Forall.
  cbn [truthy is_not_None].
  destruct a as [t d v [dia h]]; destruct h; split.
  - intros _ (_ & _ & _ & _ & _ & _ & _ & _ & _ & H).
    specialize (H eq_refl). discriminate H.
  - intros _. repeat match goal with |- _ /\ _ => split end;
      try discriminate. reflexivity.
  - intros (_ & _ & _ & _ & _ & _ & _ & _ & _ & H).
    specialize (H eq_refl). discriminate H.
  - intros H. elim H.
    repeat match goal with |- _ /\ _ => split end;
      try discriminate. reflexivity.
Qed.

(* ================================================================== *)
(** * More on the errors of a predicate *)

(** X8. Invoking a predicate raises [UnsupportedCriterionError] exactly
    when it is an instance of the base class, and [TypeError] exactly when
    it is an instance of a subclass whose operator is an ordering ([le] or
    [ge]) and whose reference value cannot be ordered with the attribute
    (a date against a number or [None], a number against a date or
    [None]).  In every other case it returns a boolean. *)
Theorem call_raises_exactly_when (f : filter) (a : CloseApproach) :
  (call f a = Raise UnsupportedCriterionError
   <-> cls f = AttributeFilter_cls)
  /\ (call f a = Raise TypeError
      <-> cls f <> AttributeFilter_cls
          /\ op f <> operator.eq
          /\ ordering_defined (cls f) (value f) = false)
  /\ ((cls f <> AttributeFilter_cls
       /\ (op f = operator.eq \/ ordering_defined (cls f) (value f) = true))
      <-> exists b : bool, call f a = Ok b).
Proof.
  destruct f as [c o v].
  cbn [cls op value].
  destruct c, o, v;
    cbv [call get cls op value bind apply_op py_eq py_le py_ge as_number
           ordering_defined];
    (split; [| split]); split; intros H;
    solve
      [ discriminate H
      | reflexivity
      | decompose [and or ex] H; congruence
      | eexists; reflexivity
      | repeat split; discriminate
      | split; [discriminate | auto] ].
Qed.


(* ================================================================== *)
(** * NaN *)







(* ================================================================== *)
(** * The printed form of a predicate *)

(** X10. The printed form of a predicate tells its class and its operator:
    two predicates with the same [repr] are of the same class and hold the
    same operator, however floats and dates are printed. *)
Theorem repr_tells_class_and_operator
  (float_str : float -> String.string) (date_str : Z -> String.string)
  (f g : filter) :
  repr float_str date_str f = repr float_str date_str g ->
  cls f = cls g /\ op f = op g.
Proof.
  destruct f as [c o v], g as [c' o' v'].
  cbn [cls op value]. unfold repr. cbn [cls op value].
  destruct c, c'; cbn [class_name String.append];
    intros H; try discriminate H;
    (split; [reflexivity |]);
    destruct o, o'; cbn [op_name String.append] in H;
    solve [reflexivity | discriminate H].
Qed.

(** [repr(DateFilter(None))] against itself. *)
Lemma repr_tells_class_and_operator_witness :
  cls (DateFilter VNone) = cls (DateFilter VNone)
  /\ op (DateFilter VNone) = op (DateFilter VNone).
Proof.
  apply (@repr_tells_class_and_operator
           (fun _ => "0.0"%string) (fun _ => "2020-01-01"%string)
           (DateFilter VNone) (DateFilter VNone)).
  reflexivity.
Defined.

(* ================================================================== *)
(** * More on the generator [limit] *)

Section LimitMore.

Variable A : Type.
Implicit Types (s p : list A) (i z : Z) (k fuel : nat) (m : option Z).

(** Asking a pass-through generator for [k] elements. *)
Lemma take_unlimited m k : forall p i,
  zero_or_None m = true ->
  take k {| n := m; frame := {| pending := p; index := i |} |}
  = (firstn k p,
     {| n := m;
        frame := {| pending := skipn k p;
                    index := i + Z.of_nat (length (firstn k p)) |} |}).
Proof.
  induction k as [| k IH]; intros p i Hm.
  - simpl. now rewrite Z.add_0_r.
  - destruct p as [| x p].
    + simpl. now rewrite Z.add_0_r.
    + cbn [take]. unfold next. cbn [n frame pending index].
      rewrite resume_unlimited by exact Hm.
      rewrite IH by exact Hm.
      cbn [firstn skipn]. rewrite length_cons.
      do 3 f_equal. lia.
Qed.

(** X11. Whatever [n] is (absent, zero, positive, negative), exhausting
    [limit(s, n)] ends, yields a prefix of [s], and leaves nothing in the
    input: every element of [s] has been pulled.  A further [next] signals
    the end again and changes nothing. *)
Theorem exhaust_consumes_the_input s m :
  exists out g,
    exhaust (limit s m) = Some (out, g)
    /\ (exists rest, s = out ++ rest)
    /\ remaining g = []
    /\ pulled g = Z.of_nat (length s)
    /\ next g = (None, g).
Proof.
  unfold exhaust, limit, remaining. cbn [frame pending].
  destruct m as [z |].
  - destruct (Z.lt_trichotomy z 0) as [Hz | [-> | Hz]].
    + rewrite drain_negative by (auto with arith).
      do 2 eexists. split; [reflexivity |].
      repeat split. now exists s.
    + rewrite drain_unlimited by (auto with arith).
      do 2 eexists. split; [reflexivity |].
      repeat split. exists []. now rewrite app_nil_r.
    + rewrite drain_limited by (auto with arith).
      do 2 eexists. split; [reflexivity |].
      repeat split. exists (skipn (Z.to_nat (z - 0)) s).
      now rewrite firstn_skipn.
  - rewrite drain_unlimited by (auto with arith).
    do 2 eexists. split; [reflexivity |].
    repeat split. exists []. now rewrite app_nil_r.
Qed.

(** X12. With [n] absent or zero, [limit] pulls on demand all along: a
    caller that asks for [k] elements gets the first [k] that the input has,
    and exactly those have been pulled. *)
Theorem unlimited_pulls_on_demand s k :
  (exists g,
      take k (limit s None) = (firstn k s, g)
      /\ remaining g = skipn k s
      /\ pulled g = Z.of_nat (length (firstn k s)))
  /\ (exists g,
      take k (limit s (Some 0)) = (firstn k s, g)
      /\ remaining g = skipn k s
      /\ pulled g = Z.of_nat (length (firstn k s))).
Proof.
  split; eexists; unfold limit;
    (rewrite take_unlimited by reflexivity); repeat split.
Qed.

(** X13. Limiting what a limit has produced: exhausting [limit(s, a)] and
    then [limit] of that result with [b] gives the first [min(a, b)]
    elements of [s]. *)
Theorem limit_of_limit s (a b : Z) :
  0 < a -> 0 < b ->
  exists out g g',
    exhaust (limit s (Some a)) = Some (out, g)
    /\ exhaust (limit out (Some b))
       = Some (firstn (Z.to_nat (Z.min a b)) s, g').
Proof.
  intros Ha Hb. unfold exhaust, limit, remaining. cbn [frame pending].
  rewrite drain_limited by (auto with arith).
  do 3 eexists. split; [reflexivity |].
  rewrite drain_limited by (auto with arith).
  rewrite !Z.sub_0_r, firstn_firstn.
  do 3 f_equal. lia.
Qed.

End LimitMore.

(** [limit(limit(range(1, 6), 4), 2)] *)
Lemma limit_of_limit_witness :
  (0 < 4 /\ 0 < 2)
  /\ exists out g g',
       exhaust (limit [1; 2; 3; 4; 5] (Some 4)) = Some (out, g)
       /\ exhaust (limit out (Some 2)) = Some ([1; 2], g').
Proof.
  split; [lia |].
  exact (@limit_of_limit Z [1; 2; 3; 4; 5] 4 2 eq_refl eq_refl).
Defined.

(* ================================================================== *)
(** * [limit] over an arbitrary iterator *)

Section LimitOverFacts.

Variable A : Type.
Variable It : Type.
Variable pull : It -> option (A * It).
Implicit Types (i z : Z) (k fuel : nat) (m : option Z) (it : It).

(** Over the iterator of a list, the general loop and the loop over a
    list do the same: given more turns than the list has elements, it
    yields the same element (or ends alike), leaves the same elements in
    the input and the same index. *)
Lemma resume_over_list m : forall (p : list A) i fuel,
  (length p < fuel)%nat ->
  resume_over list_pull fuel m p i
  = Some (fst (resume m p i),
          (pending (snd (resume m p i)), index (snd (resume m p i)))).
Proof.
  induction p as [| x p IH]; intros i fuel Hfuel;
    (destruct fuel as [| fuel]; [simpl in Hfuel; lia |]).
  - reflexivity.
  - cbn [resume_over list_pull resume].
    destruct (zero_or_None m); [reflexivity |].
    destruct (below_positive i m); [reflexivity |].
    apply IH. simpl in Hfuel. lia.
Qed.

(** While the limit is not reached, or with no limit, one turn of the loop
    is enough. *)
Lemma resume_over_yields m it it' i (value : A) fuel :
  pull it = Some (value, it') ->
  zero_or_None m = true \/ below_positive i m = true ->
  resume_over pull (S fuel) m it i = Some (Some value, (it', i + 1)).
Proof.
  intros Hpull Hm. cbn [resume_over]. rewrite Hpull.
  destruct (zero_or_None m); [reflexivity |].
  destruct Hm as [Hm | Hm]; [discriminate Hm | now rewrite Hm].
Qed.

Lemma below_positive_true i z :
  0 < z -> i < z -> below_positive i (Some z) = true.
Proof.
  intros Hz Hi. unfold below_positive.
  assert (H1 : (i <? z) = true) by (apply Z.ltb_lt; lia).
  assert (H2 : (z >? 0) = true) by (apply Z.gtb_lt; lia).
  now rewrite H1, H2.
Qed.

Lemma below_positive_false i z :
  z <= i \/ z < 0 -> below_positive i (Some z) = false.
Proof.
  intros H. unfold below_positive. destruct H as [H | H].
  - assert (H1 : (i <? z) = false) by (apply Z.ltb_ge; lia).
    now rewrite H1.
  - assert (H2 : (z >? 0) = false).
    { rewrite Z.gtb_ltb. apply Z.ltb_ge. lia. }
    rewrite H2. apply andb_false_r.
Qed.

(** X14. Over any iterator, with [n > 0]: a caller that asks
    [limit(it, n)] for [k <= n] elements gets what [k] calls of [next(it)]
    give, each request costing one turn of the loop, and the iterator is
    left where those [k] calls leave it. *)
Theorem take_over_pulls_on_demand z k : forall it i,
  0 < z -> i + Z.of_nat k <= z ->
  take_over pull 1 k (Some z) it i
  = Some (fst (pull_many pull k it),
          (snd (pull_many pull k it),
           i + Z.of_nat (length (fst (pull_many pull k it))))).
Proof.
  induction k as [| k IH]; intros it i Hz Hk.
  - simpl. now rewrite Z.add_0_r.
  - cbn [take_over pull_many].
    destruct (pull it) as [[value it'] |] eqn:Hpull.
    + rewrite (@resume_over_yields (Some z) it it' i value 0%nat Hpull)
        by (right; apply below_positive_true; lia).
      rewrite IH by lia.
      destruct (pull_many pull k it') as [values it''].
      cbn [fst snd length]. do 3 f_equal. lia.
    + cbn [resume_over]. rewrite Hpull. cbn [fst snd length].
      now rewrite Z.add_0_r.
Qed.

(** Past the limit, and for a negative limit, the loop over an iterator
    that never ends uses up any number of turns. *)
Lemma resume_over_never_returns z :
  endless pull -> z <> 0 ->
  forall fuel it i, (z <= i \/ z < 0) ->
  resume_over pull fuel (Some z) it i = None.
Proof.
  intros Hendless Hz. induction fuel as [| fuel IH]; intros it i Hi.
  - reflexivity.
  - cbn [resume_over].
    destruct (pull it) as [[value it'] |] eqn:Hpull;
      [| now elim (Hendless it)].
    cbn [zero_or_None].
    assert (H0 : (z =? 0) = false) by (apply Z.eqb_neq; exact Hz).
    rewrite H0, (below_positive_false Hi).
    apply IH. lia.
Qed.

(** X15. Over an iterator that never ends, a request that [limit(it, n)]
    cannot serve never returns, however many turns the loop is given: the
    request after the [n]-th element when [n > 0], hence any attempt to get
    more than [n] elements, and the very first request when [n < 0]. *)
Theorem limit_of_endless_never_returns z :
  endless pull ->
  (forall fuel it i, 0 < z -> z <= i ->
     resume_over pull fuel (Some z) it i = None)
  /\ (forall fuel k it, 0 < z -> (Z.to_nat z < k)%nat ->
        take_over pull fuel k (Some z) it 0 = None)
  /\ (forall fuel it, z < 0 ->
        resume_over pull fuel (Some z) it 0 = None).
Proof.
  intros Hendless. split; [| split].
  - intros fuel it i Hz Hi.
    apply resume_over_never_returns; [exact Hendless | lia | lia].
  - intros fuel k it Hz.
    assert (H : forall k it i, 0 <= i ->
                (Z.to_nat (z - i) < k)%nat ->
                take_over pull fuel k (Some z) it i = None).
    { clear k it. induction k as [| k IH]; intros it i Hi Hk; [lia |].
      cbn [take_over].
      destruct (Z.lt_ge_cases i z) as [Hlt | Hge].
      - destruct fuel as [| fuel']; [reflexivity |].
        destruct (pull it) as [[value it'] |] eqn:Hpull;
          [| now elim (Hendless it)].
        rewrite (@resume_over_yields (Some z) it it' i value fuel' Hpull)
          by (right; apply below_positive_true; lia).
        rewrite IH by lia. reflexivity.
      - rewrite resume_over_never_returns by (auto; lia).
        reflexivity. }
    intros Hk. apply H; [lia |]. now rewrite Z.sub_0_r.
  - intros fuel it Hz.
    apply resume_over_never_returns; [exact Hendless | lia | lia].
Qed.

End LimitOverFacts.

Lemma count_pull_endless : endless count_pull.
Proof. intros i. discriminate. Qed.

(** Two elements asked of [limit(count(), 3)]. *)
Lemma take_over_pulls_on_demand_witness :
  (0 < 3 /\ 0 + Z.of_nat 2 <= 3)
  /\ take_over count_pull 1 2 (Some 3) 0 0 = Some ([0; 1], (2, 2)).
Proof.
  split; [split; [lia | simpl; lia] |].
  apply (@take_over_pulls_on_demand Z Z count_pull 3 2 0 0);
    [lia | simpl; lia].
Defined.

(** The fourth element asked of [limit(count(), 3)], with a hundred turns
    of the loop for each request. *)
Lemma limit_of_endless_never_returns_witness :
  endless count_pull
  /\ take_over count_pull 100 4 (Some 3) 0 0 = None.
Proof.
  split; [exact count_pull_endless |].
  apply (proj1 (proj2 (@limit_of_endless_never_returns
                          Z Z count_pull 3 count_pull_endless)));
    [lia | simpl; lia].
Defined.
